(** * PygButton: a shallow embedding of [src/data/pygbutton.py]

    The module implements one class, [PygButton], a clickable button for
    Pygame.  This development embeds the class method by method and states
    the properties of its event state machine, of its surface handling and
    of its property setters.

    Pygame itself is outside the repository.  Its objects are modelled as
    far as the class uses them: rectangles with integer coordinates,
    events with a type and a position, surfaces as heap objects carrying a
    size and a symbolic description of their pixels. *)

From Stdlib Require Import ZArith List String Bool Lia.
From stdpp Require Import base list.
Import ListNotations.

Open Scope string_scope.
Open Scope list_scope.
Open Scope Z_scope.

(** ** Pygame values *)

Definition Color : Type := Z * Z * Z.

Definition BLACK : Color := (0, 0, 0).
Definition WHITE : Color := (255, 255, 255).
Definition DARKGRAY : Color := (64, 64, 64).
Definition GRAY : Color := (128, 128, 128).
Definition LIGHTGRAY : Color := (212, 208, 200).

(** [pygame.Rect]: position and size, all integers. *)
Record Rect : Type := mkRect {
  left : Z;
  top : Z;
  width : Z;
  height : Z
}.

Definition size (r : Rect) : Z * Z := (width r, height r).

(** [Rect.collidepoint]: a point is inside when it lies on the left or top
    edge or strictly within; the right and bottom edges are outside. *)
Definition collidepoint (r : Rect) (p : Z * Z) : bool :=
  (left r <=? fst p) && (fst p <? left r + width r) &&
  (top r <=? snd p) && (snd p <? top r + height r).

(** Event types of [pygame.locals].  Only the three mouse types are told
    apart by the class; every other type carries its numeric code. *)
Inductive EventType : Type :=
| MOUSEMOTION
| MOUSEBUTTONUP
| MOUSEBUTTONDOWN
| OTHEREVENT (code : Z).

Record Event : Type := mkEvent {
  type : EventType;
  pos : Z * Z
}.

Definition EventType_eqb (a b : EventType) : bool :=
  match a, b with
  | MOUSEMOTION, MOUSEMOTION => true
  | MOUSEBUTTONUP, MOUSEBUTTONUP => true
  | MOUSEBUTTONDOWN, MOUSEBUTTONDOWN => true
  | OTHEREVENT c, OTHEREVENT d => c =? d
  | _, _ => false
  end.

(** Python's [x in (a, b, ...)]. *)
Definition type_in (t : EventType) (ts : list EventType) : bool :=
  existsb (EventType_eqb t) ts.

(** [pygame.font.Font]: the file it was made from and its point size. *)
Record Font : Type := mkFont {
  font_file : string;
  font_points : Z
}.

Definition PYGBUTTON_FONT : Font := mkFont "freesansbold.ttf" 14.

(** Surfaces are objects: the button holds references to them. *)
Abbreviation ref := nat.

(** ** The button object *)

(** The attributes of a [PygButton].  The six surface attributes are
    optional: [__init__] creates the three displayed ones late, and the
    three [origSurface...] ones exist only once [set_surfaces] has loaded
    an image. *)
Record PygButton : Type := mkPygButton {
  _rect : Rect;
  _caption : string;
  _bgcolor : Color;
  _fgcolor : Color;
  _font : Font;
  buttonDown : bool;
  mouseOverButton : bool;
  lastMouseDownOverButton : bool;
  _visible : bool;
  customSurfaces : bool;
  surfaceNormal : option ref;
  surfaceDown : option ref;
  surfaceHighlight : option ref;
  origSurfaceNormal : option ref;
  origSurfaceDown : option ref;
  origSurfaceHighlight : option ref
}.

(** Attribute assignment, one function per attribute that is assigned. *)
Definition set__rect (v : Rect) (b : PygButton) : PygButton :=
  mkPygButton v (_caption b) (_bgcolor b) (_fgcolor b) (_font b)
    (buttonDown b) (mouseOverButton b) (lastMouseDownOverButton b)
    (_visible b) (customSurfaces b)
    (surfaceNormal b) (surfaceDown b) (surfaceHighlight b)
    (origSurfaceNormal b) (origSurfaceDown b) (origSurfaceHighlight b).

Definition set__caption (v : string) (b : PygButton) : PygButton :=
  mkPygButton (_rect b) v (_bgcolor b) (_fgcolor b) (_font b)
    (buttonDown b) (mouseOverButton b) (lastMouseDownOverButton b)
    (_visible b) (customSurfaces b)
    (surfaceNormal b) (surfaceDown b) (surfaceHighlight b)
    (origSurfaceNormal b) (origSurfaceDown b) (origSurfaceHighlight b).

Definition set__bgcolor (v : Color) (b : PygButton) : PygButton :=
  mkPygButton (_rect b) (_caption b) v (_fgcolor b) (_font b)
    (buttonDown b) (mouseOverButton b) (lastMouseDownOverButton b)
    (_visible b) (customSurfaces b)
    (surfaceNormal b) (surfaceDown b) (surfaceHighlight b)
    (origSurfaceNormal b) (origSurfaceDown b) (origSurfaceHighlight b).

Definition set__fgcolor (v : Color) (b : PygButton) : PygButton :=
  mkPygButton (_rect b) (_caption b) (_bgcolor b) v (_font b)
    (buttonDown b) (mouseOverButton b) (lastMouseDownOverButton b)
    (_visible b) (customSurfaces b)
    (surfaceNormal b) (surfaceDown b) (surfaceHighlight b)
    (origSurfaceNormal b) (origSurfaceDown b) (origSurfaceHighlight b).

Definition set__font (v : Font) (b : PygButton) : PygButton :=
  mkPygButton (_rect b) (_caption b) (_bgcolor b) (_fgcolor b) v
    (buttonDown b) (mouseOverButton b) (lastMouseDownOverButton b)
    (_visible b) (customSurfaces b)
    (surfaceNormal b) (surfaceDown b) (surfaceHighlight b)
    (origSurfaceNormal b) (origSurfaceDown b) (origSurfaceHighlight b).

Definition set_buttonDown (v : bool) (b : PygButton) : PygButton :=
  mkPygButton (_rect b) (_caption b) (_bgcolor b) (_fgcolor b) (_font b)
    v (mouseOverButton b) (lastMouseDownOverButton b)
    (_visible b) (customSurfaces b)
    (surfaceNormal b) (surfaceDown b) (surfaceHighlight b)
    (origSurfaceNormal b) (origSurfaceDown b) (origSurfaceHighlight b).

Definition set_mouseOverButton (v : bool) (b : PygButton) : PygButton :=
  mkPygButton (_rect b) (_caption b) (_bgcolor b) (_fgcolor b) (_font b)
    (buttonDown b) v (lastMouseDownOverButton b)
    (_visible b) (customSurfaces b)
    (surfaceNormal b) (surfaceDown b) (surfaceHighlight b)
    (origSurfaceNormal b) (origSurfaceDown b) (origSurfaceHighlight b).

Definition set_lastMouseDownOverButton (v : bool) (b : PygButton)
  : PygButton :=
  mkPygButton (_rect b) (_caption b) (_bgcolor b) (_fgcolor b) (_font b)
    (buttonDown b) (mouseOverButton b) v
    (_visible b) (customSurfaces b)
    (surfaceNormal b) (surfaceDown b) (surfaceHighlight b)
    (origSurfaceNormal b) (origSurfaceDown b) (origSurfaceHighlight b).

Definition set__visible (v : bool) (b : PygButton) : PygButton :=
  mkPygButton (_rect b) (_caption b) (_bgcolor b) (_fgcolor b) (_font b)
    (buttonDown b) (mouseOverButton b) (lastMouseDownOverButton b)
    v (customSurfaces b)
    (surfaceNormal b) (surfaceDown b) (surfaceHighlight b)
    (origSurfaceNormal b) (origSurfaceDown b) (origSurfaceHighlight b).

Definition set_customSurfaces (v : bool) (b : PygButton) : PygButton :=
  mkPygButton (_rect b) (_caption b) (_bgcolor b) (_fgcolor b) (_font b)
    (buttonDown b) (mouseOverButton b) (lastMouseDownOverButton b)
    (_visible b) v
    (surfaceNormal b) (surfaceDown b) (surfaceHighlight b)
    (origSurfaceNormal b) (origSurfaceDown b) (origSurfaceHighlight b).

Definition set_surfaceNormal (v : option ref) (b : PygButton) : PygButton :=
  mkPygButton (_rect b) (_caption b) (_bgcolor b) (_fgcolor b) (_font b)
    (buttonDown b) (mouseOverButton b) (lastMouseDownOverButton b)
    (_visible b) (customSurfaces b)
    v (surfaceDown b) (surfaceHighlight b)
    (origSurfaceNormal b) (origSurfaceDown b) (origSurfaceHighlight b).

Definition set_surfaceDown (v : option ref) (b : PygButton) : PygButton :=
  mkPygButton (_rect b) (_caption b) (_bgcolor b) (_fgcolor b) (_font b)
    (buttonDown b) (mouseOverButton b) (lastMouseDownOverButton b)
    (_visible b) (customSurfaces b)
    (surfaceNormal b) v (surfaceHighlight b)
    (origSurfaceNormal b) (origSurfaceDown b) (origSurfaceHighlight b).

Definition set_surfaceHighlight (v : option ref) (b : PygButton)
  : PygButton :=
  mkPygButton (_rect b) (_caption b) (_bgcolor b) (_fgcolor b) (_font b)
    (buttonDown b) (mouseOverButton b) (lastMouseDownOverButton b)
    (_visible b) (customSurfaces b)
    (surfaceNormal b) (surfaceDown b) v
    (origSurfaceNormal b) (origSurfaceDown b) (origSurfaceHighlight b).

Definition set_origSurfaceNormal (v : option ref) (b : PygButton)
  : PygButton :=
  mkPygButton (_rect b) (_caption b) (_bgcolor b) (_fgcolor b) (_font b)
    (buttonDown b) (mouseOverButton b) (lastMouseDownOverButton b)
    (_visible b) (customSurfaces b)
    (surfaceNormal b) (surfaceDown b) (surfaceHighlight b)
    v (origSurfaceDown b) (origSurfaceHighlight b).

Definition set_origSurfaceDown (v : option ref) (b : PygButton)
  : PygButton :=
  mkPygButton (_rect b) (_caption b) (_bgcolor b) (_fgcolor b) (_font b)
    (buttonDown b) (mouseOverButton b) (lastMouseDownOverButton b)
    (_visible b) (customSurfaces b)
    (surfaceNormal b) (surfaceDown b) (surfaceHighlight b)
    (origSurfaceNormal b) v (origSurfaceHighlight b).

Definition set_origSurfaceHighlight (v : option ref) (b : PygButton)
  : PygButton :=
  mkPygButton (_rect b) (_caption b) (_bgcolor b) (_fgcolor b) (_font b)
    (buttonDown b) (mouseOverButton b) (lastMouseDownOverButton b)
    (_visible b) (customSurfaces b)
    (surfaceNormal b) (surfaceDown b) (surfaceHighlight b)
    (origSurfaceNormal b) (origSurfaceDown b) v.

(** ** [handle_event] *)

(** The running state of one call: the button, the list [ret_val] built so
    far, and the hook methods called so far with their argument. *)
Record Frame : Type := mkFrame {
  button : PygButton;
  ret_val : list string;
  called : list (string * Event)
}.

Definition on_button (f : PygButton -> PygButton) (fr : Frame) : Frame :=
  mkFrame (f (button fr)) (ret_val fr) (called fr).

(** [ret_val.append(s)] *)
Definition append (s : string) (fr : Frame) : Frame :=
  mkFrame (button fr) (ret_val fr ++ [s]) (called fr).

(** The six hook methods.  Their body is [pass]: the call is recorded and
    the button is left as it is. *)
Definition hook (name : string) (event : Event) (fr : Frame) : Frame :=
  mkFrame (button fr) (ret_val fr) (called fr ++ [(name, event)]).

Definition mouse_click (event : Event) : Frame -> Frame :=
  hook "mouse_click" event.
Definition mouse_enter (event : Event) : Frame -> Frame :=
  hook "mouse_enter" event.
Definition mouse_move (event : Event) : Frame -> Frame :=
  hook "mouse_move" event.
Definition mouse_exit (event : Event) : Frame -> Frame :=
  hook "mouse_exit" event.
Definition mouse_down (event : Event) : Frame -> Frame :=
  hook "mouse_down" event.
Definition mouse_up (event : Event) : Frame -> Frame :=
  hook "mouse_up" event.

(** First block: has the mouse entered or left the button?  Returns the
    frame and the local [has_exited]. *)
Definition track_hover (event_obj : Event) (fr : Frame) : Frame * bool :=
  if negb (mouseOverButton (button fr))
     && collidepoint (_rect (button fr)) (pos event_obj)
  then
    let fr := on_button (set_mouseOverButton true) fr in
    let fr := mouse_enter event_obj fr in
    (append "enter" fr, false)
  else if mouseOverButton (button fr)
          && negb (collidepoint (_rect (button fr)) (pos event_obj))
  then (on_button (set_mouseOverButton false) fr, true)
  else (fr, false).

(** Second block: the event happened over the button, or off it. *)
Definition track_over (event_obj : Event) (fr : Frame) : Frame :=
  if collidepoint (_rect (button fr)) (pos event_obj) then
    if EventType_eqb (type event_obj) MOUSEMOTION then
      append "move" (mouse_move event_obj fr)
    else if EventType_eqb (type event_obj) MOUSEBUTTONDOWN then
      let fr := on_button (set_buttonDown true) fr in
      let fr := on_button (set_lastMouseDownOverButton true) fr in
      append "down" (mouse_down event_obj fr)
    else fr
  else
    if type_in (type event_obj) [MOUSEBUTTONUP; MOUSEBUTTONDOWN] then
      on_button (set_lastMouseDownOverButton false) fr
    else fr.

(** Third block: a mouse up is handled whether or not it was over the
    button. *)
Definition track_up (event_obj : Event) (fr : Frame) : Frame :=
  let do_mouse_click := false in
  if EventType_eqb (type event_obj) MOUSEBUTTONUP then
    let do_mouse_click :=
      if lastMouseDownOverButton (button fr) then true else do_mouse_click in
    let fr := on_button (set_lastMouseDownOverButton false) fr in
    let fr :=
      if buttonDown (button fr) then
        let fr := on_button (set_buttonDown false) fr in
        append "up" (mouse_up event_obj fr)
      else fr in
    if do_mouse_click then
      let fr := on_button (set_buttonDown false) fr in
      append "click" (mouse_click event_obj fr)
    else fr
  else fr.

(** Last block: the deferred exit. *)
Definition track_exit (event_obj : Event) (has_exited : bool) (fr : Frame)
  : Frame :=
  if has_exited then append "exit" (mouse_exit event_obj fr) else fr.

Definition handle_event (self : PygButton) (event_obj : Event) : Frame :=
  if negb (type_in (type event_obj)
             [MOUSEMOTION; MOUSEBUTTONUP; MOUSEBUTTONDOWN])
     || negb (_visible self)
  then mkFrame self [] []
  else
    let fr := mkFrame self [] [] in
    let '(fr, has_exited) := track_hover event_obj fr in
    let fr := track_over event_obj fr in
    let fr := track_up event_obj fr in
    track_exit event_obj has_exited fr.

(** The caller's event loop: every event of a list is passed to
    [handle_event] in turn; the result is the final button and the list
    returned by each call. *)
Fixpoint handle_events (self : PygButton) (events : list Event)
  : PygButton * list (list string) :=
  match events with
  | [] => (self, [])
  | e :: rest =>
      let fr := handle_event self e in
      let '(self', rets) := handle_events (button fr) rest in
      (self', ret_val fr :: rets)
  end.

(** ** Surfaces and the object heap *)

(** What a surface shows, as the history of the Pygame calls that produced
    it.  Pygame's pixel arithmetic is outside the repository; the class
    only ever asks a surface for its size. *)
Inductive Pixels : Type :=
| Blank
| FromFile (filename : string)
| Rendered (font : Font) (text : string) (antialias : bool)
    (color background : Color)
| Fill (color : Color) (under : Pixels)
| Blit (source : Pixels) (source_size : Z * Z) (dest : Rect) (under : Pixels)
| DrawRect (color : Color) (rect : Rect) (line_width : Z) (under : Pixels)
| DrawLine (color : Color) (start_pos end_pos : Z * Z) (under : Pixels)
| SmoothScale (source : Pixels) (source_size : Z * Z).

Record Surface : Type := mkSurface {
  get_size : Z * Z;
  pixels : Pixels
}.

Definition get_width (s : Surface) : Z := fst (get_size s).
Definition get_height (s : Surface) : Z := snd (get_size s).

#[global] Instance Surface_inhabited : Inhabited Surface :=
  populate (mkSurface (0, 0) Blank).

(** The exceptions that can leave a method of the class. *)
Inductive Exn : Type :=
| Exception (message : string)
| AttributeError (attribute : string)
| ValueError (message : string)
| pygame_error (message : string).

Inductive Outcome (A : Type) : Type :=
| Return (a : A)
| Raise (e : Exn).
Arguments Return {A} a.
Arguments Raise {A} e.

(** The surface objects allocated so far and the button.  A reference is
    an index into [heap]; references are only ever obtained from an
    allocation, so they are within the heap. *)
Record World : Type := mkWorld {
  heap : list Surface;
  self : PygButton
}.

(** A method body: it runs in a world, returns or raises, and leaves a
    world behind.  What was assigned before an exception stays
    assigned. *)
Definition M (A : Type) : Type := World -> Outcome A * World.

#[global] Instance M_ret : MRet M := fun A a w => (Return a, w).

#[global] Instance M_bind : MBind M := fun A B k m w =>
  match m w with
  | (Return a, w') => k a w'
  | (Raise e, w') => (Raise e, w')
  end.

Definition raise {A : Type} (e : Exn) : M A := fun w => (Raise e, w).

(** [self.name] for an attribute that always exists. *)
Definition attr {A : Type} (proj : PygButton -> A) : M A :=
  fun w => (Return (proj (self w)), w).

(** [self.name] for a surface attribute, which may not exist yet. *)
Definition attr_ref (proj : PygButton -> option ref) (name : string)
  : M ref :=
  fun w =>
    match proj (self w) with
    | Some r => (Return r, w)
    | None => (Raise (AttributeError name), w)
    end.

(** [self.name = v] *)
Definition assign (f : PygButton -> PygButton) : M unit :=
  fun w => (Return tt, mkWorld (heap w) (f (self w))).

Definition alloc (s : Surface) : M ref :=
  fun w => (Return (length (heap w)), mkWorld (heap w ++ [s]) (self w)).

Definition deref (r : ref) : M Surface :=
  fun w => (Return (heap w !!! r), w).

Definition store (r : ref) (s : Surface) : M unit :=
  fun w => (Return tt, mkWorld (<[r := s]> (heap w)) (self w)).

(** Drawing on a surface object changes its pixels in place. *)
Definition paint (r : ref) (f : Pixels -> Pixels) : M unit :=
  s ← deref r; store r (mkSurface (get_size s) (f (pixels s))).

Section Pygame.

(** The image files on disk, by name, with the size of the image each one
    holds; and the size a font gives a text. *)
Variable image_files : string -> option (Z * Z).
Variable text_size : Font -> string -> Z * Z.

(** [pygame.Surface(size)] *)
Definition pygame_Surface (sz : Z * Z) : M ref :=
  if (fst sz <? 0) || (snd sz <? 0)
  then raise (pygame_error "Invalid resolution for Surface")
  else alloc (mkSurface sz Blank).

(** [pygame.image.load(filename)] *)
Definition pygame_image_load (filename : string) : M ref :=
  match image_files filename with
  | Some sz => alloc (mkSurface sz (FromFile filename))
  | None => raise (pygame_error "Couldn't open file")
  end.

(** [pygame.transform.smoothscale(surface, size)]: a new surface of the
    size asked for. *)
Definition pygame_transform_smoothscale (surface : ref) (sz : Z * Z)
  : M ref :=
  s ← deref surface;
  if (fst sz <? 0) || (snd sz <? 0)
  then raise (ValueError "Cannot scale to negative size")
  else alloc (mkSurface sz (SmoothScale (pixels s) (get_size s))).

(** [font.render(text, antialias, color, background)] *)
Definition render (font : Font) (text : string) (antialias : bool)
    (color background : Color) : M ref :=
  alloc (mkSurface (text_size font text)
           (Rendered font text antialias color background)).

(** [surface.fill(color)] *)
Definition fill (surface : ref) (color : Color) : M unit :=
  paint surface (Fill color).

(** [surface.blit(source, dest)] *)
Definition blit (surface source : ref) (dest : Rect) : M unit :=
  s ← deref source;
  paint surface (Blit (pixels s) (get_size s) dest).

(** [pygame.draw.rect(surface, color, rect, width)] *)
Definition pygame_draw_rect (surface : ref) (color : Color) (rect : Rect)
    (line_width : Z) : M unit :=
  paint surface (DrawRect color rect line_width).

(** [pygame.draw.line(surface, color, start_pos, end_pos)] *)
Definition pygame_draw_line (surface : ref) (color : Color)
    (start_pos end_pos : Z * Z) : M unit :=
  paint surface (DrawLine color start_pos end_pos).

(** [surface.get_rect()]: the surface's size, placed at the origin. *)
Definition get_rect (surface : ref) : M Rect :=
  s ← deref surface; mret (mkRect 0 0 (get_width s) (get_height s)).

(** [rect.center = c]: the rectangle is moved so that its middle is at
    [c], its size kept. *)
Definition set_center (r : Rect) (c : Z * Z) : Rect :=
  mkRect (fst c - width r / 2) (snd c - height r / 2) (width r) (height r).

(** ** [_update] *)

(** [int(w / 2)] is written [Z.quot w 2]: the quotient rounded toward
    zero. *)

Definition _update : M unit :=
  custom ← attr customSurfaces;
  if (custom : bool) then
    o ← attr_ref origSurfaceNormal "origSurfaceNormal";
    r ← attr _rect;
    s ← pygame_transform_smoothscale o (size r);
    assign (set_surfaceNormal (Some s));;
    o ← attr_ref origSurfaceDown "origSurfaceDown";
    r ← attr _rect;
    s ← pygame_transform_smoothscale o (size r);
    assign (set_surfaceDown (Some s));;
    o ← attr_ref origSurfaceHighlight "origSurfaceHighlight";
    r ← attr _rect;
    s ← pygame_transform_smoothscale o (size r);
    assign (set_surfaceHighlight (Some s))
  else
    r ← attr _rect;
    let w := width r in
    r ← attr _rect;
    let h := height r in
    (* fill background color for all buttons *)
    s ← attr_ref surfaceNormal "surfaceNormal";
    c ← attr _bgcolor;
    fill s c;;
    s ← attr_ref surfaceDown "surfaceDown";
    c ← attr _bgcolor;
    fill s c;;
    s ← attr_ref surfaceHighlight "surfaceHighlight";
    c ← attr _bgcolor;
    fill s c;;
    (* draw caption text for all buttons *)
    font ← attr _font;
    caption ← attr _caption;
    fg ← attr _fgcolor;
    bg ← attr _bgcolor;
    caption_surf ← render font caption true fg bg;
    caption_rect ← get_rect caption_surf;
    let caption_rect := set_center caption_rect (Z.quot w 2, Z.quot h 2) in
    s ← attr_ref surfaceNormal "surfaceNormal";
    blit s caption_surf caption_rect;;
    s ← attr_ref surfaceDown "surfaceDown";
    blit s caption_surf caption_rect;;
    (* draw border for normal button *)
    s ← attr_ref surfaceNormal "surfaceNormal";
    pygame_draw_rect s BLACK (mkRect 0 0 w h) 1;;
    s ← attr_ref surfaceNormal "surfaceNormal";
    pygame_draw_line s WHITE (1, 1) (w - 2, 1);;
    s ← attr_ref surfaceNormal "surfaceNormal";
    pygame_draw_line s WHITE (1, 1) (1, h - 2);;
    s ← attr_ref surfaceNormal "surfaceNormal";
    pygame_draw_line s DARKGRAY (1, h - 1) (w - 1, h - 1);;
    s ← attr_ref surfaceNormal "surfaceNormal";
    pygame_draw_line s DARKGRAY (w - 1, 1) (w - 1, h - 1);;
    s ← attr_ref surfaceNormal "surfaceNormal";
    pygame_draw_line s GRAY (2, h - 2) (w - 2, h - 2);;
    s ← attr_ref surfaceNormal "surfaceNormal";
    pygame_draw_line s GRAY (w - 2, 2) (w - 2, h - 2);;
    (* draw border for down button *)
    s ← attr_ref surfaceDown "surfaceDown";
    pygame_draw_rect s BLACK (mkRect 0 0 w h) 1;;
    s ← attr_ref surfaceDown "surfaceDown";
    pygame_draw_line s WHITE (1, 1) (w - 2, 1);;
    s ← attr_ref surfaceDown "surfaceDown";
    pygame_draw_line s WHITE (1, 1) (1, h - 2);;
    s ← attr_ref surfaceDown "surfaceDown";
    pygame_draw_line s DARKGRAY (1, h - 2) (1, 1);;
    s ← attr_ref surfaceDown "surfaceDown";
    pygame_draw_line s DARKGRAY (1, 1) (w - 2, 1);;
    s ← attr_ref surfaceDown "surfaceDown";
    pygame_draw_line s GRAY (2, h - 3) (2, 2);;
    s ← attr_ref surfaceDown "surfaceDown";
    pygame_draw_line s GRAY (2, 2) (w - 3, 2);;
    (* draw border for highlight button *)
    s ← attr_ref surfaceNormal "surfaceNormal";
    assign (set_surfaceHighlight (Some s)).

(** ** [set_surfaces] *)

(** An argument of [set_surfaces]: a file name or a surface object. *)
Inductive SurfaceArg : Type :=
| Filename (name : string)
| SurfaceObj (surface : ref).

(** Python's [!=] on two sizes. *)
Definition size_ne (a b : Z * Z) : bool :=
  negb ((fst a =? fst b) && (snd a =? snd b)).

(** [if type(x) == str: self.orig... = pygame.image.load(x)] *)
Definition load_if_str (x : SurfaceArg)
    (set_orig : option ref -> PygButton -> PygButton) : M unit :=
  match x with
  | Filename name => s ← pygame_image_load name; assign (set_orig (Some s))
  | SurfaceObj _ => mret tt
  end.

(** The condition of the [if] that guards the [raise]: the chained
    comparison [a != b != c] is [a != b and b != c], and [c] is only
    evaluated when [a != b]. *)
Definition sizes_differ : M bool :=
  n ← attr_ref origSurfaceNormal "origSurfaceNormal";
  n ← deref n;
  d ← attr_ref origSurfaceDown "origSurfaceDown";
  d ← deref d;
  if size_ne (get_size n) (get_size d) then
    h ← attr_ref origSurfaceHighlight "origSurfaceHighlight";
    h ← deref h;
    mret (size_ne (get_size d) (get_size h))
  else mret false.

Definition set_surfaces (normal_surface : SurfaceArg)
    (down_surface highlight_surface : option SurfaceArg) : M unit :=
  let down_surface :=
    match down_surface with None => normal_surface | Some d => d end in
  let highlight_surface :=
    match highlight_surface with None => normal_surface | Some h => h end in
  load_if_str normal_surface set_origSurfaceNormal;;
  load_if_str down_surface set_origSurfaceDown;;
  load_if_str highlight_surface set_origSurfaceHighlight;;
  differ ← sizes_differ;
  if (differ : bool) then raise (Exception "foo")
  else
    o ← attr_ref origSurfaceNormal "origSurfaceNormal";
    assign (set_surfaceNormal (Some o));;
    o ← attr_ref origSurfaceDown "origSurfaceDown";
    assign (set_surfaceDown (Some o));;
    o ← attr_ref origSurfaceHighlight "origSurfaceHighlight";
    assign (set_surfaceHighlight (Some o));;
    assign (set_customSurfaces true);;
    r ← attr _rect;
    let l := left r in
    r ← attr _rect;
    let t := top r in
    s ← attr_ref surfaceNormal "surfaceNormal";
    s ← deref s;
    let w := get_width s in
    s ← attr_ref surfaceNormal "surfaceNormal";
    s ← deref s;
    let h := get_height s in
    assign (set__rect (mkRect l t w h)).

(** ** [__init__] *)

(** The constructor, run on the heap of the surfaces that exist already.
    It returns the world holding the new button, or raises. *)
Definition __init__ (rect : option Rect) (caption : string)
    (bgcolor fgcolor : Color) (font : option Font)
    (normal down highlight : option SurfaceArg) (h : list Surface)
  : Outcome unit * World :=
  let rect := match rect with None => mkRect 0 0 30 60 | Some r => r end in
  let font := match font with None => PYGBUTTON_FONT | Some f => f end in
  let new :=
    mkPygButton rect caption bgcolor fgcolor font
      false false false true false None None None None None None in
  let body : M unit :=
    match normal with
    | None =>
        r ← attr _rect;
        s ← pygame_Surface (size r);
        assign (set_surfaceNormal (Some s));;
        r ← attr _rect;
        s ← pygame_Surface (size r);
        assign (set_surfaceDown (Some s));;
        r ← attr _rect;
        s ← pygame_Surface (size r);
        assign (set_surfaceHighlight (Some s));;
        _update
    | Some normal => set_surfaces normal down highlight
    end in
  body (mkWorld h new).

(** ** [draw] *)

Definition draw (surface_obj : ref) : M unit :=
  visible ← attr _visible;
  if (visible : bool) then
    down ← attr buttonDown;
    if (down : bool) then
      s ← attr_ref surfaceDown "surfaceDown";
      r ← attr _rect;
      blit surface_obj s r
    else
      over ← attr mouseOverButton;
      if (over : bool) then
        s ← attr_ref surfaceHighlight "surfaceHighlight";
        r ← attr _rect;
        blit surface_obj s r
      else
        s ← attr_ref surfaceNormal "surfaceNormal";
        r ← attr _rect;
        blit surface_obj s r
  else mret tt.

(** ** The properties *)

Definition _prop_get_caption : M string := attr _caption.

Definition _prop_set_caption (caption_text : string) : M unit :=
  assign (set_customSurfaces false);;
  assign (set__caption caption_text);;
  _update.

Definition _prop_get_rect : M Rect := attr _rect.

Definition _prop_set_rect (new_rect : Rect) : M unit :=
  _update;;
  assign (set__rect new_rect).

Definition _prop_get_visible : M bool := attr _visible.

Definition _prop_set_visible (setting : bool) : M unit :=
  assign (set__visible setting).

Definition _prop_get_fg_color : M Color := attr _fgcolor.

Definition _prop_set_fg_color (setting : Color) : M unit :=
  assign (set_customSurfaces false);;
  assign (set__fgcolor setting);;
  _update.

Definition _prop_get_bg_color : M Color := attr _bgcolor.

Definition _prop_set_bg_color (setting : Color) : M unit :=
  assign (set_customSurfaces false);;
  assign (set__bgcolor setting);;
  _update.

Definition _prop_get_font : M Font := attr _font.

Definition _prop_set_font (setting : Font) : M unit :=
  assign (set_customSurfaces false);;
  assign (set__font setting);;
  _update.

End Pygame.

(** ** A concrete setting for running the class *)

(** Four image files on disk and a fixed-pitch font. *)
Definition disk (name : string) : option (Z * Z) :=
  if String.eqb name "a.png" then Some (10, 10)
  else if String.eqb name "b.png" then Some (10, 10)
  else if String.eqb name "c.png" then Some (20, 20)
  else if String.eqb name "d.png" then Some (30, 30)
  else None.

Definition fixed_pitch (font : Font) (text : string) : Z * Z :=
  (8 * Z.of_nat (String.length text), font_points font + 2).

(** [PygButton(rect)]: a text button, every other parameter at its
    default, built on an empty heap. *)
Definition text_button (rect : Rect) : Outcome unit * World :=
  __init__ disk fixed_pitch (Some rect) "" LIGHTGRAY BLACK None
    None None None [].

(** [PygButton(rect, normal=name)]: an image button. *)
Definition image_button (rect : Rect) (normal : string)
  : Outcome unit * World :=
  __init__ disk fixed_pitch (Some rect) "" LIGHTGRAY BLACK None
    (Some (Filename normal)) None None [].

(** ** Reading a list of signals *)

(** Follows the hovering state through a list of signals: ['enter'] is
    only accepted while not hovering, ['exit'] ends the hovering.  [None]
    when an ['enter'] is met while hovering. *)
Fixpoint hover_after (over : bool) (signals : list string) : option bool :=
  match signals with
  | [] => Some over
  | s :: rest =>
      if String.eqb s "enter" then
        if over then None else hover_after true rest
      else if String.eqb s "exit" then hover_after false rest
      else hover_after over rest
  end.

(** The button is not waiting for a click, as far as it handles events at
    all. *)
Definition no_pending_click (b : PygButton) : Prop :=
  _visible b = true -> lastMouseDownOverButton b = false.

(** A press inside the rectangle. *)
Definition press_inside (r : Rect) (e : Event) : Prop :=
  type e = MOUSEBUTTONDOWN /\ collidepoint r (pos e) = true.

(** ** Reading the stored source images *)

(** The button [b] with its three [origSurface...] attributes replaced. *)
Definition with_origSurfaces (normal down highlight : option ref)
    (b : PygButton) : PygButton :=
  set_origSurfaceHighlight highlight
    (set_origSurfaceDown down (set_origSurfaceNormal normal b)).

(** What a call of [set_surfaces] that got as far as the size check has
    left in one [origSurface...] attribute: for a file name, a surface
    allocated during the call that holds the image of that file; for a
    surface object, what the attribute held before. *)
Definition stored_for (image_files : string -> option (Z * Z))
    (x : SurfaceArg) (heap_before : list Surface) (old : option ref)
    (heap_after : list Surface) (new : option ref) : Prop :=
  match x with
  | Filename name =>
      exists (r : ref) (sz : Z * Z),
        new = Some r /\ (length heap_before <= r)%nat /\
        image_files name = Some sz /\
        heap_after !! r = Some (mkSurface sz (FromFile name))
  | SurfaceObj _ => new = old
  end.

(** The size of the surface an attribute refers to. *)
Definition size_of (w : World) (proj : PygButton -> option ref)
  : option (Z * Z) :=
  match proj (self w) with
  | Some r => Some (get_size (heap w !!! r))
  | None => None
  end.

(** The source image [r], scaled to the size [sz]. *)
Definition scaled (h : list Surface) (r : ref) (sz : Z * Z) : Surface :=
  mkSurface sz (SmoothScale (pixels (h !!! r)) (get_size (h !!! r))).

(** * Properties of [handle_event] *)

Arguments collidepoint : simpl never.

(** Every path through [handle_event], by the event's type, the flags of
    the button and whether the position is inside the rectangle. *)
Ltac handle_paths b e :=
  destruct b as [r ? ? ? ? bd mo lm vis ? ? ? ? ? ? ?];
  destruct e as [[ | | | code] p];
  unfold handle_event, track_hover, track_over, track_up, track_exit;
  cbn;
  destruct vis, mo, bd, lm; cbn;
  try (destruct (collidepoint r p) eqn:Hin;
       repeat (progress (cbn; rewrite ?Hin))).

Lemma handle_event_keeps_rect (b : PygButton) (e : Event) :
  _rect (button (handle_event b e)) = _rect b.
Proof. handle_paths b e; reflexivity. Qed.

Lemma handle_event_keeps_visible (b : PygButton) (e : Event) :
  _visible (button (handle_event b e)) = _visible b.
Proof. handle_paths b e; reflexivity. Qed.

Lemma handle_events_keeps_rect (events : list Event) (b : PygButton) :
  _rect (fst (handle_events b events)) = _rect b.
Proof.
  revert b. induction events as [|e rest IH]; intros b; simpl.
  - reflexivity.
  - specialize (IH (button (handle_event b e))).
    destruct (handle_events (button (handle_event b e)) rest) as [b' rets].
    simpl in *. rewrite IH. apply handle_event_keeps_rect.
Qed.

Lemma handle_events_app (l1 l2 : list Event) (b : PygButton) :
  handle_events b (l1 ++ l2) =
  (fst (handle_events (fst (handle_events b l1)) l2),
   snd (handle_events b l1) ++ snd (handle_events (fst (handle_events b l1)) l2)).
Proof.
  revert b. induction l1 as [|e rest IH]; intros b; simpl.
  - destruct (handle_events b l2); reflexivity.
  - rewrite IH.
    destruct (handle_events (button (handle_event b e)) rest) as [b1 r1].
    reflexivity.
Qed.

(** The constructor succeeds in the concrete setting. *)
Example text_button_returns :
  fst (text_button (mkRect 0 0 100 40)) = Return tt /\
  fst (image_button (mkRect 0 0 100 40) "a.png") = Return tt.
Proof. split; reflexivity. Qed.

(** A motion, a press and a release over a new button: the signals are
    ['enter', 'move'], ['down'] and ['up', 'click']. *)
Example click_scenario :
  snd (handle_events (self (snd (text_button (mkRect 0 0 100 40))))
         [mkEvent MOUSEMOTION (50, 20); mkEvent MOUSEBUTTONDOWN (50, 20);
          mkEvent MOUSEBUTTONUP (50, 20)])
  = [["enter"; "move"]; ["down"]; ["up"; "click"]].
Proof. reflexivity. Qed.

(** C9: an invisible button, or an event that is neither a mouse motion
    nor a mouse button press or release, makes [handle_event] return the
    empty list; the button is left exactly as it was and no hook method is
    called. *)
Theorem handle_event_ignores (b : PygButton) (e : Event) :
  _visible b = false \/
  (type e <> MOUSEMOTION /\ type e <> MOUSEBUTTONDOWN /\
   type e <> MOUSEBUTTONUP) ->
  handle_event b e = mkFrame b [] [].
Proof.
  intros [Hvis | (Hm & Hd & Hu)]; unfold handle_event.
  - rewrite Hvis. rewrite orb_true_r. reflexivity.
  - destruct e as [[ | | | code] p]; simpl in *; congruence.
Qed.

Lemma handle_event_ignores_witness :
  handle_event
    (mkPygButton (mkRect 0 0 100 40) "OK" LIGHTGRAY BLACK PYGBUTTON_FONT
       true true true false false (Some 0%nat) (Some 1%nat) (Some 0%nat)
       None None None)
    (mkEvent MOUSEBUTTONUP (50, 20))
  = mkFrame
      (mkPygButton (mkRect 0 0 100 40) "OK" LIGHTGRAY BLACK PYGBUTTON_FONT
         true true true false false (Some 0%nat) (Some 1%nat) (Some 0%nat)
         None None None)
      [] [].
Proof. apply handle_event_ignores. left. reflexivity. Defined.

(** C10: when the list returned by [handle_event] contains ['up'] or
    ['click'], [buttonDown] and [lastMouseDownOverButton] are both false
    when the call returns. *)
Theorem up_or_click_leaves_button_released (b : PygButton) (e : Event) :
  In "up" (ret_val (handle_event b e)) \/
  In "click" (ret_val (handle_event b e)) ->
  buttonDown (button (handle_event b e)) = false /\
  lastMouseDownOverButton (button (handle_event b e)) = false.
Proof.
  handle_paths b e; intros H; (split; [reflexivity | reflexivity])
  || (exfalso; simpl in H; intuition discriminate).
Qed.

Lemma up_or_click_leaves_button_released_witness :
  buttonDown (button (handle_event
    (mkPygButton (mkRect 0 0 100 40) "OK" LIGHTGRAY BLACK PYGBUTTON_FONT
       true true true true false (Some 0%nat) (Some 1%nat) (Some 0%nat)
       None None None)
    (mkEvent MOUSEBUTTONUP (50, 20)))) = false /\
  lastMouseDownOverButton (button (handle_event
    (mkPygButton (mkRect 0 0 100 40) "OK" LIGHTGRAY BLACK PYGBUTTON_FONT
       true true true true false (Some 0%nat) (Some 1%nat) (Some 0%nat)
       None None None)
    (mkEvent MOUSEBUTTONUP (50, 20)))) = false.
Proof.
  apply up_or_click_leaves_button_released. left. vm_compute. left.
  reflexivity.
Defined.

(** C4, as amended: for every visible button and every mouse button
    release, inside the rectangle or outside,
    [lastMouseDownOverButton] is false after [handle_event]. *)
Theorem release_clears_pending_click (b : PygButton) (e : Event) :
  _visible b = true ->
  type e = MOUSEBUTTONUP ->
  lastMouseDownOverButton (button (handle_event b e)) = false.
Proof.
  handle_paths b e; intros Hvis Hup; try discriminate; reflexivity.
Qed.

Lemma release_clears_pending_click_witness :
  lastMouseDownOverButton (button (handle_event
    (mkPygButton (mkRect 0 0 100 40) "OK" LIGHTGRAY BLACK PYGBUTTON_FONT
       true true true true false (Some 0%nat) (Some 1%nat) (Some 0%nat)
       None None None)
    (mkEvent MOUSEBUTTONUP (200, 200)))) = false.
Proof.
  apply release_clears_pending_click; reflexivity.
Defined.

(** C4 as stated fails on an invisible button.  A text button is pressed,
    then hidden through its [visible] property, then the mouse button is
    released: [handle_event] returns at once and
    [lastMouseDownOverButton] stays true. *)
Lemma release_on_hidden_button_keeps_pending_click :
  let w0 := snd (text_button (mkRect 0 0 100 40)) in
  let pressed := button (handle_event (self w0)
                           (mkEvent MOUSEBUTTONDOWN (50, 20))) in
  let hidden := self (snd (_prop_set_visible false
                             (mkWorld (heap w0) pressed))) in
  let release := mkEvent MOUSEBUTTONUP (50, 20) in
  type release = MOUSEBUTTONUP /\
  lastMouseDownOverButton (button (handle_event hidden release)) = true.
Proof. split; reflexivity. Qed.

(** C6: in the list returned by one call of [handle_event], every
    ['click'] has the ['up'] before it and none after it, whenever the
    list contains both. *)
Theorem up_before_click (b : PygButton) (e : Event)
    (front back : list string) :
  ret_val (handle_event b e) = front ++ "click" :: back ->
  In "up" (ret_val (handle_event b e)) ->
  In "up" front /\ ~ In "up" back.
Proof.
  handle_paths b e; intros Hsplit Hup;
    try (exfalso; simpl in Hup; intuition discriminate);
    repeat (destruct front as [|? front]; simpl in Hsplit;
            try discriminate Hsplit);
    inversion Hsplit; subst; simpl; intuition discriminate.
Qed.

Lemma up_before_click_witness :
  In "up" ["up"] /\ ~ In "up" [].
Proof.
  apply (up_before_click
    (mkPygButton (mkRect 0 0 100 40) "OK" LIGHTGRAY BLACK PYGBUTTON_FONT
       true true true true false (Some 0%nat) (Some 1%nat) (Some 0%nat)
       None None None)
    (mkEvent MOUSEBUTTONUP (50, 20)) ["up"] []).
  - reflexivity.
  - vm_compute. left. reflexivity.
Defined.

(** *** Entering and leaving *)

Lemma hover_after_app (l1 l2 : list string) (over : bool) :
  hover_after over (l1 ++ l2) =
  match hover_after over l1 with
  | Some over' => hover_after over' l2
  | None => None
  end.
Proof.
  revert over. induction l1 as [|s rest IH]; intros over; simpl.
  - reflexivity.
  - destruct (String.eqb s "enter").
    + destruct over; [reflexivity | apply IH].
    + destruct (String.eqb s "exit"); apply IH.
Qed.

(** The signals of one call follow [mouseOverButton]. *)
Lemma handle_event_hover (b : PygButton) (e : Event) :
  hover_after (mouseOverButton b) (ret_val (handle_event b e)) =
  Some (mouseOverButton (button (handle_event b e))).
Proof. handle_paths b e; reflexivity. Qed.

Lemma handle_events_hover (events : list Event) (b : PygButton) :
  hover_after (mouseOverButton b) (concat (snd (handle_events b events))) =
  Some (mouseOverButton (fst (handle_events b events))).
Proof.
  revert b. induction events as [|e rest IH]; intros b; simpl.
  - reflexivity.
  - specialize (IH (button (handle_event b e))).
    destruct (handle_events (button (handle_event b e)) rest) as [b' rets].
    simpl in *. rewrite hover_after_app, handle_event_hover. exact IH.
Qed.

(** While hovering, a second ['enter'] is only accepted after an
    ['exit']. *)
Lemma hover_after_second_enter (middle rest : list string) :
  ~ In "exit" middle ->
  hover_after true (middle ++ "enter" :: rest) = None.
Proof.
  induction middle as [|s middle IH]; intros Hno; simpl.
  - reflexivity.
  - destruct (String.eqb s "enter") eqn:Henter; [reflexivity|].
    destruct (String.eqb s "exit") eqn:Hexit.
    + apply String.eqb_eq in Hexit. subst s. exfalso. apply Hno. left.
      reflexivity.
    + apply IH. intros Hin. apply Hno. right. exact Hin.
Qed.

Lemma hover_after_enter_twice (over : bool)
    (front middle rest : list string) :
  hover_after over (front ++ "enter" :: middle ++ "enter" :: rest) <> None ->
  In "exit" middle.
Proof.
  intros Hok.
  destruct (in_dec string_dec "exit" middle) as [Hin | Hno]; [exact Hin|].
  exfalso. apply Hok. rewrite hover_after_app.
  destruct (hover_after over front) as [over'|]; [|reflexivity].
  simpl. destruct over'; [reflexivity|].
  apply hover_after_second_enter. exact Hno.
Qed.

(** C7: whatever events are passed to [handle_event] one after the other,
    from the state a new button is in or from any other, the signals
    returned, put end to end, never hold two ['enter'] without an ['exit']
    between them. *)
Theorem enter_twice_needs_exit (b : PygButton) (events : list Event)
    (front middle rest : list string) :
  concat (snd (handle_events b events)) =
    front ++ "enter" :: middle ++ "enter" :: rest ->
  In "exit" middle.
Proof.
  intros Hsplit.
  apply (hover_after_enter_twice (mouseOverButton b) front middle rest).
  rewrite <- Hsplit, handle_events_hover. discriminate.
Qed.

Lemma enter_twice_needs_exit_witness :
  In "exit" ["move"; "move"; "exit"].
Proof.
  apply (enter_twice_needs_exit
    (self (snd (text_button (mkRect 0 0 100 40))))
    [mkEvent MOUSEMOTION (50, 20); mkEvent MOUSEMOTION (60, 20);
     mkEvent MOUSEMOTION (200, 200); mkEvent MOUSEMOTION (50, 20)]
    [] ["move"; "move"; "exit"] ["move"]).
  reflexivity.
Defined.

(** *** Presses and clicks *)

Lemma press_outside_clears (b : PygButton) (p : Z * Z) :
  collidepoint (_rect b) p = false ->
  no_pending_click (button (handle_event b (mkEvent MOUSEBUTTONDOWN p))).
Proof.
  unfold no_pending_click.
  destruct b as [r ? ? ? ? bd mo lm vis ? ? ? ? ? ? ?].
  unfold handle_event, track_hover, track_over, track_up, track_exit.
  cbn. intros Hout.
  destruct vis, mo, bd, lm; repeat (progress (cbn; rewrite ?Hout));
    intros; congruence.
Qed.

Lemma no_pending_click_kept (b : PygButton) (e : Event) :
  ~ press_inside (_rect b) e ->
  no_pending_click b ->
  no_pending_click (button (handle_event b e)).
Proof.
  unfold no_pending_click, press_inside.
  handle_paths b e; intros Hnot Hb Hvis; try congruence;
    try (apply Hb; reflexivity);
    exfalso; apply Hnot; split; reflexivity.
Qed.

Lemma no_pending_click_kept_all (events : list Event) (b : PygButton) :
  Forall (fun e => ~ press_inside (_rect b) e) events ->
  no_pending_click b ->
  no_pending_click (fst (handle_events b events)).
Proof.
  revert b. induction events as [|e rest IH]; intros b Hall Hb; simpl.
  - exact Hb.
  - inversion Hall as [|? ? He Hrest]; subst.
    specialize (IH (button (handle_event b e))).
    destruct (handle_events (button (handle_event b e)) rest) as [b' rets].
    simpl in *. apply IH.
    + rewrite handle_event_keeps_rect. exact Hrest.
    + apply no_pending_click_kept; assumption.
Qed.

Lemma no_pending_click_no_click (b : PygButton) (e : Event) :
  no_pending_click b ->
  ~ In "click" (ret_val (handle_event b e)).
Proof.
  unfold no_pending_click.
  handle_paths b e; intros Hb Hclick;
    try (specialize (Hb eq_refl); discriminate Hb);
    simpl in Hclick; intuition discriminate.
Qed.

(** C5, as amended: in every sequence of events passed to [handle_event],
    when a press happened outside the rectangle and no press inside the
    rectangle happened between it and a later release, that release does
    not put ['click'] in the list it returns, wherever the release
    happens. *)
Theorem press_outside_gives_no_click (b : PygButton)
    (before between : list Event) (outside : Z * Z) (release : Event) :
  collidepoint (_rect b) outside = false ->
  type release = MOUSEBUTTONUP ->
  Forall (fun e => ~ press_inside (_rect b) e) between ->
  ~ In "click"
      (ret_val
         (handle_event
            (fst (handle_events b
                    (before ++ mkEvent MOUSEBUTTONDOWN outside :: between)))
            release)).
Proof.
  intros Hout Hup Hbetween.
  apply no_pending_click_no_click.
  rewrite handle_events_app. cbn [fst snd].
  change (mkEvent MOUSEBUTTONDOWN outside :: between)
    with ([mkEvent MOUSEBUTTONDOWN outside] ++ between).
  rewrite handle_events_app. cbn [fst snd]. simpl.
  apply no_pending_click_kept_all.
  - rewrite handle_event_keeps_rect, handle_events_keeps_rect.
    exact Hbetween.
  - apply press_outside_clears.
    rewrite handle_events_keeps_rect. exact Hout.
Qed.

Lemma press_outside_gives_no_click_witness :
  ~ In "click"
      (ret_val
         (handle_event
            (fst (handle_events (self (snd (text_button (mkRect 0 0 100 40))))
                    ([mkEvent MOUSEMOTION (50, 20)] ++
                     mkEvent MOUSEBUTTONDOWN (200, 200) ::
                     [mkEvent MOUSEMOTION (50, 20)])))
            (mkEvent MOUSEBUTTONUP (50, 20)))).
Proof.
  apply press_outside_gives_no_click.
  - reflexivity.
  - reflexivity.
  - repeat constructor. unfold press_inside. intros [H _].
    cbn [type] in H. discriminate H.
Defined.

(** C5 as stated fails when a press inside the rectangle comes between the
    press outside and the release: the release returns ['click']. *)
Lemma press_outside_then_inside_gives_click :
  let b := self (snd (text_button (mkRect 0 0 100 40))) in
  let events := [mkEvent MOUSEBUTTONDOWN (200, 200);
                 mkEvent MOUSEBUTTONDOWN (50, 20);
                 mkEvent MOUSEBUTTONUP (50, 20)] in
  collidepoint (_rect b) (200, 200) = false /\
  collidepoint (_rect b) (50, 20) = true /\
  snd (handle_events b events) = [[]; ["enter"; "down"]; ["up"; "click"]].
Proof. cbv zeta. repeat apply conj; vm_compute; reflexivity. Qed.

(** C2, as amended: a visible button with rectangle (0, 0, 100, 40), not
    hovered, not pressed and not waiting for a click, is passed a press at
    (200, 200), a motion at (50, 20) and a release at (50, 20).  The calls
    return [[]], [['enter', 'move']] and [[]]: the release returns neither
    ['up'] nor ['click'], since the button was never pressed. *)
Theorem press_outside_scenario (b : PygButton) :
  _rect b = mkRect 0 0 100 40 ->
  _visible b = true ->
  buttonDown b = false ->
  mouseOverButton b = false ->
  lastMouseDownOverButton b = false ->
  snd (handle_events b [mkEvent MOUSEBUTTONDOWN (200, 200);
                        mkEvent MOUSEMOTION (50, 20);
                        mkEvent MOUSEBUTTONUP (50, 20)])
  = [[]; ["enter"; "move"]; []].
Proof.
  destruct b as [r ? ? ? ? bd mo lm vis ? ? ? ? ? ? ?]. simpl.
  intros -> -> -> -> ->. reflexivity.
Qed.

Lemma press_outside_scenario_witness :
  snd (handle_events (self (snd (text_button (mkRect 0 0 100 40))))
         [mkEvent MOUSEBUTTONDOWN (200, 200);
          mkEvent MOUSEMOTION (50, 20);
          mkEvent MOUSEBUTTONUP (50, 20)])
  = [[]; ["enter"; "move"]; []].
Proof.
  apply press_outside_scenario; reflexivity.
Defined.

(** C2 as stated fails: on a new button with that rectangle the third
    call returns the empty list, which does not contain ['up']. *)
Lemma press_outside_scenario_has_no_up :
  let b := self (snd (text_button (mkRect 0 0 100 40))) in
  let rets := snd (handle_events b [mkEvent MOUSEBUTTONDOWN (200, 200);
                                    mkEvent MOUSEMOTION (50, 20);
                                    mkEvent MOUSEBUTTONUP (50, 20)]) in
  _rect b = mkRect 0 0 100 40 /\ _visible b = true /\
  buttonDown b = false /\ mouseOverButton b = false /\
  lastMouseDownOverButton b = false /\
  ~ (exists third, rets !! 2%nat = Some third /\ In "up" third).
Proof.
  repeat split. intros (third & Hthird & Hup).
  vm_compute in Hthird. inversion Hthird; subst. destruct Hup.
Qed.

(** * Properties of [set_surfaces] *)

Section SetSurfaces.


Variable image_files : string -> option (Z * Z).

Lemma bind_run {A B : Type} (m : M A) (k : A -> M B) (w : World) :
  (m ≫= k) w =
  match m w with
  | (Return a, w') => k a w'
  | (Raise e, w') => (Raise e, w')
  end.
Proof. reflexivity. Qed.

Lemma load_if_str_run (x : SurfaceArg)
    (set_orig : option ref -> PygButton -> PygButton) (w : World) :
  load_if_str image_files x set_orig w =
  match x with
  | Filename name =>
      match image_files name with
      | Some sz =>
          (Return tt,
           mkWorld (heap w ++ [mkSurface sz (FromFile name)])
             (set_orig (Some (length (heap w))) (self w)))
      | None => (Raise (pygame_error "Couldn't open file"), w)
      end
  | SurfaceObj _ => (Return tt, w)
  end.
Proof.
  destruct x as [name | r]; [|reflexivity].
  unfold load_if_str, pygame_image_load. rewrite bind_run.
  destruct (image_files name); reflexivity.
Qed.

Lemma sizes_differ_run (w : World) :
  snd (sizes_differ w) = w /\
  forall message, fst (sizes_differ w) <> Raise (Exception message).
Proof.
  unfold sizes_differ, attr_ref, deref. rewrite !bind_run.
  destruct (origSurfaceNormal (self w)); [|split; [reflexivity|discriminate]].
  rewrite !bind_run.
  destruct (origSurfaceDown (self w)); [|split; [reflexivity|discriminate]].
  rewrite !bind_run.
  destruct (size_ne _ _); [|split; [reflexivity|discriminate]].
  rewrite !bind_run.
  destruct (origSurfaceHighlight (self w)); split; (reflexivity || discriminate).
Qed.


Lemma load_if_str_no_exception (x : SurfaceArg)
    (set_orig : option ref -> PygButton -> PygButton) (w w' : World)
    (message : string) :
  load_if_str image_files x set_orig w <> (Raise (Exception message), w').
Proof.
  rewrite load_if_str_run.
  destruct x as [name | r]; [destruct (image_files name)|]; discriminate.
Qed.

Lemma set_surfaces_raise (normal : SurfaceArg)
    (down highlight : option SurfaceArg) (w w' : World) :
  set_surfaces image_files normal down highlight w
    = (Raise (Exception "foo"), w') ->
  exists w1 w2 : World,
    load_if_str image_files normal set_origSurfaceNormal w
      = (Return tt, w1) /\
    load_if_str image_files
      (match down with None => normal | Some d => d end)
      set_origSurfaceDown w1 = (Return tt, w2) /\
    load_if_str image_files
      (match highlight with None => normal | Some h => h end)
      set_origSurfaceHighlight w2 = (Return tt, w') /\
    sizes_differ w' = (Return true, w').
Proof.
  unfold set_surfaces. rewrite bind_run.
  destruct (load_if_str image_files normal set_origSurfaceNormal w)
    as [[[] | e1] w1] eqn:H1.
  2:{ intros H. inversion H; subst.
      exfalso. exact (load_if_str_no_exception _ _ _ _ _ H1). }
  rewrite bind_run.
  destruct (load_if_str image_files _ set_origSurfaceDown w1)
    as [[[] | e2] w2] eqn:H2.
  2:{ intros H. inversion H; subst.
      exfalso. exact (load_if_str_no_exception _ _ _ _ _ H2). }
  rewrite bind_run.
  destruct (load_if_str image_files _ set_origSurfaceHighlight w2)
    as [[[] | e3] w3] eqn:H3.
  2:{ intros H. inversion H; subst.
      exfalso. exact (load_if_str_no_exception _ _ _ _ _ H3). }
  rewrite bind_run.
  destruct (sizes_differ_run w3) as [Hworld Hno].
  destruct (sizes_differ w3) as [[differ | e4] w4] eqn:H4; simpl in Hworld;
    subst w4.
  2:{ intros H. inversion H; subst. exfalso. exact (Hno _ eq_refl). }
  destruct differ.
  - intros H. inversion H; subst. exists w1, w2. auto.
  - unfold attr_ref, assign, attr, deref. intros H. exfalso.
    repeat (rewrite bind_run in H; cbn in H;
            try match type of H with
                | context [match ?x with Some _ => _ | None => _ end] =>
                    destruct x
                end);
    discriminate H.
Qed.


Ltac new_surface :=
  repeat first
    [ apply list_lookup_middle; reflexivity
    | rewrite lookup_app_l by (rewrite ?length_app; simpl; lia) ].

(** C3, as amended: when [set_surfaces] fails with the size-mismatch
    error, every attribute of the button other than the three stored
    source images is what it was before the call, and so is every surface
    object that existed before; each stored source image whose argument
    was a file name has been replaced by the image loaded from that file,
    and each one whose argument was a surface object is what it was. *)
Theorem set_surfaces_mismatch_keeps_all_but_orig (normal : SurfaceArg)
    (down highlight : option SurfaceArg) (w w' : World) :
  set_surfaces image_files normal down highlight w
    = (Raise (Exception "foo"), w') ->
  self w' =
    with_origSurfaces (origSurfaceNormal (self w'))
      (origSurfaceDown (self w')) (origSurfaceHighlight (self w')) (self w) /\
  (exists loaded : list Surface, heap w' = heap w ++ loaded) /\
  stored_for image_files normal
    (heap w) (origSurfaceNormal (self w))
    (heap w') (origSurfaceNormal (self w')) /\
  stored_for image_files (match down with None => normal | Some d => d end)
    (heap w) (origSurfaceDown (self w))
    (heap w') (origSurfaceDown (self w')) /\
  stored_for image_files
    (match highlight with None => normal | Some h => h end)
    (heap w) (origSurfaceHighlight (self w))
    (heap w') (origSurfaceHighlight (self w')).
Proof.
  intros Hraise.
  destruct (set_surfaces_raise _ _ _ _ _ Hraise)
    as (w1 & w2 & H1 & H2 & H3 & _).
  clear Hraise. rewrite load_if_str_run in H1, H2, H3.
  destruct w as [h b].
  set (d := match down with None => normal | Some d => d end) in *.
  set (hl := match highlight with None => normal | Some h => h end) in *.
  clearbody d hl. clear down highlight.
  destruct normal as [n1 | r1], d as [n2 | r2], hl as [n3 | r3];
    repeat match type of H1 with
           | context [image_files ?n] => destruct (image_files n) eqn:?
           end;
    repeat match type of H2 with
           | context [image_files ?n] => destruct (image_files n) eqn:?
           end;
    repeat match type of H3 with
           | context [image_files ?n] => destruct (image_files n) eqn:?
           end;
    try discriminate;
    inversion H1; subst; inversion H2; subst; inversion H3; subst;
    (split; [destruct b; reflexivity|]);
    (split;
     [cbn [heap];
      first [ exists []; rewrite app_nil_r; reflexivity
            | rewrite <- ?app_assoc; eexists; reflexivity ]|]);
    destruct b; cbn;
    repeat split;
    try (eexists; eexists;
         repeat split;
         [ rewrite ?length_app; simpl; lia
         | eassumption
         | new_surface ]).
Qed.

End SetSurfaces.

Lemma set_surfaces_mismatch_keeps_all_but_orig_witness :
  let w := snd (image_button (mkRect 0 0 100 40) "a.png") in
  let w' := snd (set_surfaces disk (Filename "c.png")
                   (Some (Filename "d.png")) None w) in
  self w' =
    with_origSurfaces (origSurfaceNormal (self w'))
      (origSurfaceDown (self w')) (origSurfaceHighlight (self w')) (self w) /\
  (exists loaded : list Surface, heap w' = heap w ++ loaded) /\
  stored_for disk (Filename "c.png")
    (heap w) (origSurfaceNormal (self w))
    (heap w') (origSurfaceNormal (self w')) /\
  stored_for disk (Filename "d.png")
    (heap w) (origSurfaceDown (self w))
    (heap w') (origSurfaceDown (self w')) /\
  stored_for disk (Filename "c.png")
    (heap w) (origSurfaceHighlight (self w))
    (heap w') (origSurfaceHighlight (self w')).
Proof.
  apply (set_surfaces_mismatch_keeps_all_but_orig disk (Filename "c.png")
           (Some (Filename "d.png")) None).
  vm_compute. reflexivity.
Defined.

(** C3 as stated fails: an image button made from a.png (10 x 10) is
    given c.png (20 x 20), d.png (30 x 30) and a.png.  The call fails with
    the size-mismatch error, and the stored source images of the button
    are no longer the ones it had. *)
Lemma set_surfaces_mismatch_changes_stored_images :
  let w := snd (image_button (mkRect 0 0 100 40) "a.png") in
  let run := set_surfaces disk (Filename "c.png")
               (Some (Filename "d.png")) (Some (Filename "a.png")) w in
  fst run = Raise (Exception "foo") /\
  origSurfaceNormal (self w) = Some 0%nat /\
  origSurfaceNormal (self (snd run)) = Some 3%nat /\
  size_of w origSurfaceNormal = Some (10, 10) /\
  size_of (snd run) origSurfaceNormal = Some (20, 20) /\
  self (snd run) <> self w.
Proof.
  repeat split. intros H.
  apply (f_equal origSurfaceNormal) in H. vm_compute in H. discriminate H.
Qed.

Lemma size_ne_true (a b : Z * Z) : size_ne a b = true <-> a <> b.
Proof.
  unfold size_ne. destruct a as [a1 a2], b as [b1 b2]. simpl.
  rewrite negb_true_iff, andb_false_iff, !Z.eqb_neq.
  split.
  - intros H Heq. inversion Heq. lia.
  - intros H. destruct (Z.eq_dec a1 b1) as [-> | Hne]; [|left; exact Hne].
    right. intros ->. apply H. reflexivity.
Qed.

Ltac new_surface_total :=
  repeat first
    [ apply list_lookup_total_middle; reflexivity
    | rewrite lookup_total_app_l by (rewrite ?length_app; simpl; lia) ].

Lemma alloc3_lookup (h : list Surface) (s1 s2 s3 : Surface) :
  (((h ++ [s1]) ++ [s2]) ++ [s3]) !!! length h = s1 /\
  (((h ++ [s1]) ++ [s2]) ++ [s3]) !!! length (h ++ [s1]) = s2 /\
  (((h ++ [s1]) ++ [s2]) ++ [s3]) !!! length ((h ++ [s1]) ++ [s2]) = s3.
Proof. repeat split; new_surface_total. Qed.


(** The chained comparison: the sizes differ when the normal image differs
    from the down image and the down image differs from the highlight
    image. *)
Lemma sizes_differ_value (w : World) (n d h : ref) :
  origSurfaceNormal (self w) = Some n ->
  origSurfaceDown (self w) = Some d ->
  origSurfaceHighlight (self w) = Some h ->
  sizes_differ w =
  (Return (size_ne (get_size (heap w !!! n)) (get_size (heap w !!! d))
           && size_ne (get_size (heap w !!! d)) (get_size (heap w !!! h))),
   w).
Proof.
  intros Hn Hd Hh. unfold sizes_differ.
  rewrite bind_run. unfold attr_ref at 1. rewrite Hn.
  rewrite bind_run. unfold deref at 1.
  rewrite bind_run. unfold attr_ref at 1. rewrite Hd.
  rewrite bind_run. unfold deref at 1.
  destruct (size_ne _ _); [|reflexivity].
  rewrite bind_run. unfold attr_ref at 1. rewrite Hh.
  rewrite bind_run. unfold deref at 1. reflexivity.
Qed.

Lemma set_surfaces_raise_when (image_files : string -> option (Z * Z))
    (normal : SurfaceArg) (down highlight : option SurfaceArg)
    (w w1 w2 w' : World) :
  load_if_str image_files normal set_origSurfaceNormal w
    = (Return tt, w1) ->
  load_if_str image_files
    (match down with None => normal | Some d => d end)
    set_origSurfaceDown w1 = (Return tt, w2) ->
  load_if_str image_files
    (match highlight with None => normal | Some h => h end)
    set_origSurfaceHighlight w2 = (Return tt, w') ->
  sizes_differ w' = (Return true, w') ->
  set_surfaces image_files normal down highlight w
    = (Raise (Exception "foo"), w').
Proof.
  intros H1 H2 H3 H4. unfold set_surfaces.
  rewrite bind_run, H1, bind_run, H2, bind_run, H3, bind_run, H4.
  reflexivity.
Qed.

(** Given three image files, [set_surfaces] fails with the size-mismatch
    error exactly when the normal image differs in size from the down
    image and the down image from the highlight image. *)
Lemma set_surfaces_files_raise_iff (image_files : string -> option (Z * Z))
    (normal down highlight : string) (sn sd sh : Z * Z) (w : World) :
  image_files normal = Some sn ->
  image_files down = Some sd ->
  image_files highlight = Some sh ->
  fst (set_surfaces image_files (Filename normal) (Some (Filename down))
         (Some (Filename highlight)) w) = Raise (Exception "foo")
  <-> sn <> sd /\ sd <> sh.
Proof.
  intros Hn Hd Hh. rewrite <- !size_ne_true.
  set (s1 := mkSurface sn (FromFile normal)).
  set (s2 := mkSurface sd (FromFile down)).
  set (s3 := mkSurface sh (FromFile highlight)).
  set (w1 := mkWorld (heap w ++ [s1])
               (set_origSurfaceNormal (Some (length (heap w))) (self w))).
  set (w2 := mkWorld (heap w1 ++ [s2])
               (set_origSurfaceDown (Some (length (heap w1))) (self w1))).
  set (w3 := mkWorld (heap w2 ++ [s3])
               (set_origSurfaceHighlight (Some (length (heap w2))) (self w2))).
  assert (H1 : load_if_str image_files (Filename normal)
                 set_origSurfaceNormal w = (Return tt, w1))
    by (rewrite load_if_str_run, Hn; reflexivity).
  assert (H2 : load_if_str image_files (Filename down)
                 set_origSurfaceDown w1 = (Return tt, w2))
    by (rewrite load_if_str_run, Hd; reflexivity).
  assert (H3 : load_if_str image_files (Filename highlight)
                 set_origSurfaceHighlight w2 = (Return tt, w3))
    by (rewrite load_if_str_run, Hh; reflexivity).
  assert (H4 : sizes_differ w3 =
               (Return (size_ne sn sd && size_ne sd sh), w3)).
  { rewrite (sizes_differ_value w3 (length (heap w)) (length (heap w1))
               (length (heap w2))) by reflexivity.
    destruct (alloc3_lookup (heap w) s1 s2 s3) as (E1 & E2 & E3).
    unfold w3, w2, w1. cbn [heap self]. rewrite E1, E2, E3. reflexivity. }
  split.
  - intros Hraise.
    destruct (set_surfaces image_files (Filename normal)
                (Some (Filename down)) (Some (Filename highlight)) w)
      as [o w'] eqn:Hrun.
    simpl in Hraise. subst o.
    destruct (set_surfaces_raise _ _ _ _ _ _ Hrun)
      as (v1 & v2 & G1 & G2 & G3 & G4).
    rewrite H1 in G1. injection G1 as E1. rewrite <- E1 in G2.
    rewrite H2 in G2. injection G2 as E2. rewrite <- E2 in G3.
    rewrite H3 in G3. injection G3 as E3. rewrite <- E3 in G4.
    rewrite H4 in G4. injection G4 as Hb.
    apply andb_true_iff in Hb. exact Hb.
  - intros [Ha Hb].
    rewrite (set_surfaces_raise_when image_files (Filename normal)
               (Some (Filename down)) (Some (Filename highlight))
               w w1 w2 w3 H1 H2 H3).
    + reflexivity.
    + rewrite H4, Ha, Hb. reflexivity.
Qed.

(** C1: the code accepts images that do not all have the same size.  A
    text button is given a.png (10 x 10), b.png (10 x 10) and c.png
    (20 x 20): [set_surfaces] returns normally and the button shows a
    highlight image of another size than its normal image. *)
Lemma set_surfaces_accepts_unequal_sizes :
  let w := snd (text_button (mkRect 0 0 100 40)) in
  let run := set_surfaces disk (Filename "a.png")
               (Some (Filename "b.png")) (Some (Filename "c.png")) w in
  fst run = Return tt /\
  customSurfaces (self (snd run)) = true /\
  size_of (snd run) surfaceNormal = Some (10, 10) /\
  size_of (snd run) surfaceDown = Some (10, 10) /\
  size_of (snd run) surfaceHighlight = Some (20, 20).
Proof. cbv zeta. repeat apply conj; vm_compute; reflexivity. Qed.

(** Surface objects passed to [set_surfaces] are compared with nothing and
    stored nowhere: only file names are loaded.  On a text button, three
    surface objects of three sizes end in an [AttributeError]; on an image
    button they are accepted and the button keeps the images it had. *)
Lemma set_surfaces_surface_objects_not_stored :
  let objects := [mkSurface (10, 10) Blank; mkSurface (20, 20) Blank;
                  mkSurface (30, 30) Blank] in
  let w := snd (text_button (mkRect 0 0 100 40)) in
  let w_text := mkWorld (heap w ++ objects) (self w) in
  let v := snd (image_button (mkRect 0 0 100 40) "a.png") in
  let w_image := mkWorld (heap v ++ objects) (self v) in
  fst (set_surfaces disk (SurfaceObj 4%nat) (Some (SurfaceObj 5%nat))
         (Some (SurfaceObj 6%nat)) w_text)
    = Raise (AttributeError "origSurfaceNormal") /\
  fst (set_surfaces disk (SurfaceObj 3%nat) (Some (SurfaceObj 4%nat))
         (Some (SurfaceObj 5%nat)) w_image)
    = Return tt /\
  self (snd (set_surfaces disk (SurfaceObj 3%nat) (Some (SurfaceObj 4%nat))
               (Some (SurfaceObj 5%nat)) w_image))
    = self v.
Proof. cbv zeta. repeat apply conj; vm_compute; reflexivity. Qed.

(** * Properties of the [rect] property *)

Lemma attr_run {A : Type} (proj : PygButton -> A) (w : World) :
  attr proj w = (Return (proj (self w)), w).
Proof. reflexivity. Qed.

Lemma attr_ref_run (proj : PygButton -> option ref) (name : string)
    (w : World) (r : ref) :
  proj (self w) = Some r ->
  attr_ref proj name w = (Return r, w).
Proof. intros H. unfold attr_ref. rewrite H. reflexivity. Qed.

Lemma assign_run (f : PygButton -> PygButton) (w : World) :
  assign f w = (Return tt, mkWorld (heap w) (f (self w))).
Proof. reflexivity. Qed.

Lemma smoothscale_run (surface : ref) (sz : Z * Z) (w : World) :
  0 <= fst sz -> 0 <= snd sz ->
  pygame_transform_smoothscale surface sz w =
  (Return (length (heap w)),
   mkWorld
     (heap w ++
      [mkSurface sz (SmoothScale (pixels (heap w !!! surface))
                       (get_size (heap w !!! surface)))])
     (self w)).
Proof.
  intros Hw Hh. unfold pygame_transform_smoothscale.
  rewrite bind_run. unfold deref at 1.
  replace ((fst sz <? 0) || (snd sz <? 0)) with false; [reflexivity|].
  symmetry. apply orb_false_iff. split; apply Z.ltb_ge; assumption.
Qed.

(** In image mode the [rect] setter scales the source images to the size
    of the rectangle it is about to replace. *)
Lemma rect_setter_uses_old_rect (text_size : Font -> string -> Z * Z)
    (new_rect : Rect) (w : World) (n d h : ref) :
  customSurfaces (self w) = true ->
  origSurfaceNormal (self w) = Some n ->
  origSurfaceDown (self w) = Some d ->
  origSurfaceHighlight (self w) = Some h ->
  (n < length (heap w))%nat ->
  (d < length (heap w))%nat ->
  (h < length (heap w))%nat ->
  0 <= width (_rect (self w)) ->
  0 <= height (_rect (self w)) ->
  let old_size := size (_rect (self w)) in
  _prop_set_rect text_size new_rect w =
  (Return tt,
   mkWorld
     (heap w ++ [scaled (heap w) n old_size; scaled (heap w) d old_size;
                 scaled (heap w) h old_size])
     (set__rect new_rect
        (set_surfaceHighlight (Some (2 + length (heap w))%nat)
           (set_surfaceDown (Some (1 + length (heap w))%nat)
              (set_surfaceNormal (Some (length (heap w))) (self w)))))).
Proof.
  intros Hc Hn Hd Hh Ln Ld Lh Hwidth Hheight old_size.
  unfold _prop_set_rect, _update.
  rewrite bind_run, bind_run, attr_run, Hc.
  rewrite bind_run, (attr_ref_run _ _ _ n Hn).
  rewrite bind_run, attr_run.
  rewrite bind_run, smoothscale_run by assumption.
  rewrite bind_run, assign_run. cbn [heap self].
  rewrite bind_run, (attr_ref_run _ _ _ d) by exact Hd.
  rewrite bind_run, attr_run.
  rewrite bind_run, smoothscale_run by assumption.
  rewrite bind_run, assign_run. cbn [heap self].
  rewrite bind_run, (attr_ref_run _ _ _ h) by exact Hh.
  rewrite bind_run, attr_run.
  rewrite bind_run, smoothscale_run by assumption.
  rewrite assign_run. cbn [heap self].
  rewrite assign_run. cbn [heap self].
  unfold scaled, old_size. cbn [_rect set_surfaceNormal set_surfaceDown].
  rewrite !length_app. cbn [length].
  rewrite !lookup_total_app_l by (rewrite ?length_app; simpl; lia).
  rewrite <- !app_assoc. cbn [app].
  replace (length (heap w) + 1 + 1)%nat with (2 + length (heap w))%nat
    by lia.
  replace (length (heap w) + 1)%nat with (1 + length (heap w))%nat by lia.
  reflexivity.
Qed.

(** C8: the code scales to the rectangle the button had before the
    assignment.  An image button made from a.png (10 x 10) is assigned the
    rectangle (0, 0, 20, 20): its three surfaces are the source images
    scaled to 10 x 10, not to 20 x 20. *)
Lemma rect_setter_scales_to_old_size :
  let w := snd (image_button (mkRect 5 5 100 40) "a.png") in
  let run := _prop_set_rect fixed_pitch (mkRect 0 0 20 20) w in
  fst run = Return tt /\
  customSurfaces (self (snd run)) = true /\
  _rect (self w) = mkRect 5 5 10 10 /\
  _rect (self (snd run)) = mkRect 0 0 20 20 /\
  size_of (snd run) surfaceNormal = Some (10, 10) /\
  size_of (snd run) surfaceDown = Some (10, 10) /\
  size_of (snd run) surfaceHighlight = Some (10, 10).
Proof. cbv zeta. repeat apply conj; vm_compute; reflexivity. Qed.
